(** * Certificate signal handlers, certificate API and courseware URL table

    A shallow embedding of

    - [lms/djangoapps/certificates/signals.py] (the six signal receivers),
    - the [CertificateStatuses] enumeration and the data-driven test tables of
      [openedx/core/djangoapps/certificates/tests/test_api.py],
    - [openedx/core/djangoapps/courseware_api/urls.py] (the route table).

    The receivers are Python procedures acting on the database and on the
    task queue.  They are embedded as computations in a state monad over a
    record [World] that holds the tables the receivers read and write, the
    ordered trace of the effectful operations they invoke, and the log. *)

From stdpp Require Import base option list strings gmap.
From Stdlib Require Import QArith.

Close Scope Q_scope.
Open Scope string_scope.
Open Scope list_scope.

(** ** Data model *)

(** A Django user; the receivers only read [user.id]. *)
Record User := mkUser { user_id : N }.

Global Instance User_eq_dec : EqDecision User.
Proof. solve_decision. Defined.

Global Instance User_countable : Countable User.
Proof. apply (inj_countable' user_id mkUser). by intros []. Defined.

(** Course keys, enrollment modes and certificate statuses are strings in
    the source. *)
Abbreviation CourseKey := string (only parsing).
Abbreviation Mode := string (only parsing).
Abbreviation Status := string (only parsing).

(** [class CertificateStatuses] (test_api.py, lines 30-52). *)
Module CertificateStatuses.
Definition deleted : Status := "deleted".
Definition deleting : Status := "deleting".
Definition downloadable : Status := "downloadable".
Definition error : Status := "error".
Definition generating : Status := "generating".
Definition notpassing : Status := "notpassing".
Definition restricted : Status := "restricted".
Definition unavailable : Status := "unavailable".
Definition auditing : Status := "auditing".
Definition audit_passing : Status := "audit_passing".
Definition audit_notpassing : Status := "audit_notpassing".
Definition unverified : Status := "unverified".
Definition invalidated : Status := "invalidated".
Definition requesting : Status := "requesting".

Definition ALL_STATUSES : list Status :=
  [ deleted; deleting; downloadable; error; generating; notpassing;
    restricted; unavailable; auditing; audit_passing; audit_notpassing;
    unverified; invalidated; requesting ].
End CertificateStatuses.

(** The mutable columns of a certificate row.  [mode] and [grade] may be
    [None] in Python; a grade is a Python float that the receivers only pass
    along, embedded as a rational. *)
Record CertificateFields := mkFields {
  status : Status;
  mode : option Mode;
  grade : option Q;
}.

(** A [GeneratedCertificate] model instance: the row key [(user, course_id)]
    together with the column values that were read. *)
Record GeneratedCertificate := mkCert {
  cert_user : User;
  cert_course_id : CourseKey;
  cert_fields : CertificateFields;
}.

(** [MockGeneratedCertificate.is_valid] (test_api.py, lines 68-72). *)
Definition is_valid (self : GeneratedCertificate) : bool :=
  bool_decide (status (cert_fields self) = CertificateStatuses.downloadable).

(** A [CourseEnrollment] row. *)
Record CourseEnrollment := mkEnrollment {
  enr_user : User;
  enr_course_id : CourseKey;
  enr_mode : Mode;
  enr_is_active : bool;
}.

(** The attributes of a course overview that the shown code reads. *)
Record CourseOverview := mkOverview {
  overview_id : CourseKey;
  self_paced : bool;
}.

(** A [CertificateAllowlist] row as handed to the [post_save] receiver. *)
Record CertificateAllowlist := mkAllowlistRow {
  al_user : User;
  al_course_id : CourseKey;
}.

(** The grade object carried by COURSE_GRADE_NOW_FAILED. *)
Record CourseGrade := mkGrade { percent : Q }.

(** The dictionary returned by [IDVerificationService.user_status]; the
    receiver reads its ['status'] entry. *)
Record VerificationStatus := mkVerification { verification_status : string }.

(** Effectful operations of other modules, as invoked by the receivers. *)
Inductive Call :=
| call_set_self_generation_enabled_for_course (course_key : CourseKey) (is_enabled : bool)
| call_generate_allowlist_certificate_task (user : User) (course_key : CourseKey)
| call_generate_certificate_task (user : User) (course_key : CourseKey)
| call_mark_notpassing (user : User) (course_key : CourseKey)
    (mode : option Mode) (grade : Q) (source : string).

(** The [log.info] messages of signals.py, with the interpolated values. *)
Inductive LogRecord :=
| log_setting_toggled (course_id : CourseKey)
| log_now_on_allowlist (user_id : N) (course_id : CourseKey)
| log_already_passing (user_id : N) (course_id : CourseKey)
| log_passing_grade_received (user_id : N) (course_id : CourseKey)
| log_failing_grade_allowlisted (user_id : N) (course_id : CourseKey)
| log_marked_not_passing (user_id : N) (course_id : CourseKey)
| log_id_verification (user_id : N) (course_id : CourseKey) (status : string)
| log_enrollment_mode (user_id : N) (course_key : CourseKey) (mode : Mode).

(** ** The world the receivers act on *)

Record World := mkWorld {
  (** the AUTO_CERTIFICATE_GENERATION waffle switch *)
  auto_certificate_generation : bool;
  (** the (user, course) pairs on the certificate allowlist *)
  allowlist : gset (User * CourseKey);
  (** the certificate table, one row per (user, course) *)
  certificates : gmap (User * CourseKey) CertificateFields;
  (** the enrollment table *)
  enrollments : list CourseEnrollment;
  (** the self-generated-certificates setting per course *)
  self_generation_enabled : gmap CourseKey bool;
  (** the identity-verification service *)
  id_verification : User -> VerificationStatus;
  (** operations invoked so far, oldest first *)
  calls : list Call;
  (** log records written so far, oldest first *)
  log : list LogRecord;
}.

Definition set_certificates (f : gmap (User * CourseKey) CertificateFields ->
                                 gmap (User * CourseKey) CertificateFields)
    (w : World) : World :=
  mkWorld (auto_certificate_generation w) (allowlist w) (f (certificates w))
          (enrollments w) (self_generation_enabled w) (id_verification w)
          (calls w) (log w).

Definition set_self_generation_enabled (f : gmap CourseKey bool -> gmap CourseKey bool)
    (w : World) : World :=
  mkWorld (auto_certificate_generation w) (allowlist w) (certificates w)
          (enrollments w) (f (self_generation_enabled w)) (id_verification w)
          (calls w) (log w).

Definition set_calls (f : list Call -> list Call) (w : World) : World :=
  mkWorld (auto_certificate_generation w) (allowlist w) (certificates w)
          (enrollments w) (self_generation_enabled w) (id_verification w)
          (f (calls w)) (log w).

Definition set_log (f : list LogRecord -> list LogRecord) (w : World) : World :=
  mkWorld (auto_certificate_generation w) (allowlist w) (certificates w)
          (enrollments w) (self_generation_enabled w) (id_verification w)
          (calls w) (f (log w)).

Definition set_auto_certificate_generation (b : bool) (w : World) : World :=
  mkWorld b (allowlist w) (certificates w)
          (enrollments w) (self_generation_enabled w) (id_verification w)
          (calls w) (log w).

Definition set_id_verification (f : User -> VerificationStatus) (w : World) : World :=
  mkWorld (auto_certificate_generation w) (allowlist w) (certificates w)
          (enrollments w) (self_generation_enabled w) f
          (calls w) (log w).

(** ** State monad *)

Definition State (A : Type) : Type := World -> A * World.

Definition ret {A} (a : A) : State A := fun w => (a, w).

Global Instance State_ret : MRet State := @ret.
Global Instance State_bind : MBind State :=
  fun A B (k : A -> State B) (m : State A) w => let '(a, w1) := m w in k a w1.

Definition gets {A} (f : World -> A) : State A := fun w => (f w, w).
Definition modify (f : World -> World) : State unit := fun w => (tt, f w).

Definition eval {A} (m : State A) (w : World) : A := fst (m w).
Definition exec {A} (m : State A) (w : World) : World := snd (m w).

(** [for x in xs: body(x)] *)
Fixpoint for_each {A} (xs : list A) (body : A -> State unit) : State unit :=
  match xs with
  | [] => ret tt
  | x :: rest => body x ;; for_each rest body
  end.

Definition invoke (c : Call) : State unit := modify (set_calls (fun cs => cs ++ [c])).
Definition log_info (r : LogRecord) : State unit := modify (set_log (fun rs => rs ++ [r])).

(** ** Sample data *)

Definition alice : User := mkUser 7.
Definition bob : User := mkUser 9.

Definition sample_passing_status (s : Status) : bool :=
  bool_decide (s = CertificateStatuses.downloadable) ||
  bool_decide (s = CertificateStatuses.generating).

Definition sample_eligible_mode (m : Mode) : bool :=
  negb (bool_decide (m = "audit")).

Definition sample_world : World :=
  mkWorld true
          {[ (bob, "course-v1:edX+Demo+2021") ]}
          {[ (alice, "course-v1:edX+Demo+2021") :=
               mkFields CertificateStatuses.downloadable (Some "verified") (Some (9 # 10)%Q);
             (bob, "course-v1:edX+Demo+2021") :=
               mkFields CertificateStatuses.generating (Some "honor") None ]}
          [ mkEnrollment alice "course-v1:edX+Demo+2021" "verified" true;
            mkEnrollment bob "course-v1:edX+Demo+2021" "honor" true;
            mkEnrollment alice "course-v1:edX+Other+2021" "audit" false ]
          {[ "course-v1:edX+Demo+2021" := false ]}
          (fun _ => mkVerification "approved")
          []
          [].

Definition sample_world_disabled : World :=
  set_auto_certificate_generation false sample_world.

Definition carol : User := mkUser 11.

(** ** The receivers of signals.py and the operations they use *)

Section Receivers.

(** [CertificateStatuses.is_passing_status] and
    [modes_api.is_eligible_for_certificate] are defined outside the shown
    sources, and neither the sources nor the specification fix their
    tables; they are parameters of the development. *)
Variable is_passing_status : Status -> bool.
Variable is_eligible_for_certificate : Mode -> bool.

(** Modelled from the spec: [auto_certificate_generation_enabled] of
    [openedx.core.djangoapps.certificates.api], which is not among the
    sources.  It reads the feature flag;
    [test_auto_certificate_generation_enabled] asserts that it returns the
    value the waffle switch was set to. *)
Definition auto_certificate_generation_enabled : State bool :=
  gets auto_certificate_generation.

(** Modelled from the spec: [is_on_certificate_allowlist] of
    [generation_handler], not among the sources.  The allowlist is a set of
    (user, course) pairs. *)
Definition is_on_certificate_allowlist (user : User) (course_key : CourseKey)
  : State bool :=
  gets (fun w => bool_decide ((user, course_key) ∈ allowlist w)).

(** Modelled from the spec: [GeneratedCertificate.certificate_for_student],
    not among the sources: the certificate of the user for the course, or
    [None]. *)
Definition certificate_for_student (student : User) (course_id : CourseKey)
  : State (option GeneratedCertificate) :=
  gets (fun w => mkCert student course_id <$> certificates w !! (student, course_id)).

(** Modelled from the spec: [CourseEnrollment.enrollment_mode_for_user], not
    among the sources: the pair (mode, is_active) of the user's enrollment
    in the course, [(None, None)] without one. *)
Definition enrollment_mode_for_user (user : User) (course_id : CourseKey)
  : State (option Mode * option bool) :=
  gets (fun w =>
    match List.find (fun e => bool_decide (enr_user e = user) &&
                              bool_decide (enr_course_id e = course_id))
                    (enrollments w) with
    | Some e => (Some (enr_mode e), Some (enr_is_active e))
    | None => (None, None)
    end).

(** Modelled from the spec: [CourseEnrollment.enrollments_for_user], not
    among the sources: the course enrollments of the user. *)
Definition enrollments_for_user (user : User) : State (list CourseEnrollment) :=
  gets (fun w => List.filter (fun e => bool_decide (enr_user e = user)) (enrollments w)).

(** Modelled from the spec: [IDVerificationService.user_status], not among
    the sources. *)
Definition user_status (user : User) : State VerificationStatus :=
  gets (fun w => id_verification w user).

(** Modelled from the spec:
    [CertificateGenerationCourseSetting.set_self_generation_enabled_for_course],
    not among the sources: records the setting for the course. *)
Definition set_self_generation_enabled_for_course
    (course_key : CourseKey) (is_enabled : bool) : State unit :=
  invoke (call_set_self_generation_enabled_for_course course_key is_enabled) ;;
  modify (set_self_generation_enabled <[course_key := is_enabled]>).

(** Modelled from the spec: [generate_allowlist_certificate_task] and
    [generate_certificate_task] of [generation_handler], not among the
    sources.  Certificate generation is deferred to an external task queue;
    the invocation is recorded. *)
Definition generate_allowlist_certificate_task (user : User) (course_key : CourseKey)
  : State unit :=
  invoke (call_generate_allowlist_certificate_task user course_key).

Definition generate_certificate_task (user : User) (course_key : CourseKey)
  : State unit :=
  invoke (call_generate_certificate_task user course_key).

(** Modelled from the spec: [GeneratedCertificate.mark_notpassing], not
    among the sources: the row of the instance gets the status
    [notpassing], the given mode and the given grade. *)
Definition mark_notpassing (self : GeneratedCertificate)
    (mode : option Mode) (grade : Q) (source : string) : State unit :=
  invoke (call_mark_notpassing (cert_user self) (cert_course_id self) mode grade source) ;;
  modify (set_certificates
            <[(cert_user self, cert_course_id self) :=
                mkFields CertificateStatuses.notpassing mode (Some grade)]>).

(** A receiver returns Python's [None] ([None] here) or the result of the
    task function it ends with ([Some]). *)

(** signals.py, lines 36-48 *)
Definition _update_cert_settings_on_pacing_change
    (updated_course_overview : CourseOverview) : State (option unit) :=
  set_self_generation_enabled_for_course
    (overview_id updated_course_overview)
    (self_paced updated_course_overview) ;;
  log_info (log_setting_toggled (overview_id updated_course_overview)) ;;
  ret None.

(** signals.py, lines 51-62 *)
Definition _listen_for_certificate_allowlist_append
    (instance : CertificateAllowlist) : State (option unit) :=
  enabled ← auto_certificate_generation_enabled;
  if negb enabled then ret None
  else
    listed ← is_on_certificate_allowlist (al_user instance) (al_course_id instance);
    if (listed : bool) then
      log_info (log_now_on_allowlist (user_id (al_user instance)) (al_course_id instance)) ;;
      r ← generate_allowlist_certificate_task (al_user instance) (al_course_id instance);
      ret (Some r)
    else ret None.

(** signals.py, lines 65-82 *)
Definition listen_for_passing_grade (user : User) (course_id : CourseKey)
  : State (option unit) :=
  enabled ← auto_certificate_generation_enabled;
  if negb enabled then ret None
  else
    cert ← certificate_for_student user course_id;
    if match cert with
       | Some c => is_passing_status (status (cert_fields c))
       | None => false
       end
    then
      log_info (log_already_passing (user_id user) course_id) ;;
      ret None
    else
      log_info (log_passing_grade_received (user_id user) course_id) ;;
      r ← generate_certificate_task user course_id;
      ret (Some r).

(** signals.py, lines 85-102 *)
Definition _listen_for_failing_grade (user : User) (course_id : CourseKey)
    (grade : CourseGrade) : State (option unit) :=
  listed ← is_on_certificate_allowlist user course_id;
  if (listed : bool) then
    log_info (log_failing_grade_allowlisted (user_id user) course_id) ;;
    ret None
  else
    cert ← certificate_for_student user course_id;
    match cert with
    | Some c =>
        if is_passing_status (status (cert_fields c)) then
          '(enrollment_mode, _) ← enrollment_mode_for_user user course_id;
          mark_notpassing c enrollment_mode (percent grade) "notpassing_signal" ;;
          log_info (log_marked_not_passing (user_id user) course_id) ;;
          ret None
        else ret None
    | None => ret None
    end.

(** signals.py, lines 105-120 *)
Definition _listen_for_id_verification_status_changed (user : User)
  : State (option unit) :=
  enabled ← auto_certificate_generation_enabled;
  if negb enabled then ret None
  else
    user_enrollments ← enrollments_for_user user;
    expected_verification_status ← user_status user;
    let expected_verification_status :=
      verification_status expected_verification_status in
    for_each user_enrollments (fun enrollment =>
      log_info (log_id_verification (user_id user) (enr_course_id enrollment)
                                    expected_verification_status) ;;
      generate_certificate_task user (enr_course_id enrollment)) ;;
    ret None.

(** signals.py, lines 123-134 *)
Definition _listen_for_enrollment_mode_change (user : User)
    (course_key : CourseKey) (mode : Mode) : State (option unit) :=
  if is_eligible_for_certificate mode then
    log_info (log_enrollment_mode (user_id user) course_key mode) ;;
    generate_certificate_task user course_key ;;
    ret None
  else ret None.

End Receivers.

(** ** Signal dispatch *)

(** The signals the receivers are connected to by [@receiver] (signals.py,
    lines 36, 51, 65, 85, 105 and 123), each with the keyword arguments its
    receiver reads.  [post_save] is connected for the sender
    [CertificateAllowlist] only. *)
Inductive Signal :=
| COURSE_PACING_CHANGED (updated_course_overview : CourseOverview)
| post_save_CertificateAllowlist (instance : CertificateAllowlist)
| COURSE_GRADE_NOW_PASSED (user : User) (course_id : CourseKey)
| COURSE_GRADE_NOW_FAILED (user : User) (course_id : CourseKey) (grade : CourseGrade)
| LEARNER_NOW_VERIFIED (user : User)
| ENROLLMENT_TRACK_UPDATED (user : User) (course_key : CourseKey) (mode : Mode).

Section Dispatch.

Variable is_passing_status : Status -> bool.
Variable is_eligible_for_certificate : Mode -> bool.

(** Sending a signal calls the receiver this module connected to it. *)
Definition dispatch (signal : Signal) : State (option unit) :=
  match signal with
  | COURSE_PACING_CHANGED updated_course_overview =>
      _update_cert_settings_on_pacing_change updated_course_overview
  | post_save_CertificateAllowlist instance =>
      _listen_for_certificate_allowlist_append instance
  | COURSE_GRADE_NOW_PASSED user course_id =>
      listen_for_passing_grade is_passing_status user course_id
  | COURSE_GRADE_NOW_FAILED user course_id grade =>
      _listen_for_failing_grade is_passing_status user course_id grade
  | LEARNER_NOW_VERIFIED user =>
      _listen_for_id_verification_status_changed user
  | ENROLLMENT_TRACK_UPDATED user course_key mode =>
      _listen_for_enrollment_mode_change is_eligible_for_certificate user course_key mode
  end.

(** Signals sent one after the other. *)
Definition dispatch_all (signals : list Signal) : State unit :=
  for_each signals (fun signal => dispatch signal ;; ret tt).

End Dispatch.

(** ** The certificates API (tested by test_api.py) *)

(** Modelled from the spec: [can_show_certificate_available_date_field] of
    [openedx.core.djangoapps.certificates.api], which is not among the
    sources (only its test is).  Whether the certificate availability date is
    shown depends on the feature flag and on the course being self-paced; the
    four rows of the test's data table fix the function. *)
Definition can_show_certificate_available_date_field (course : CourseOverview)
  : State bool :=
  enabled ← auto_certificate_generation_enabled;
  if (enabled : bool) then ret (negb (self_paced course)) else ret false.

(** The [ddt.data] rows of [test_can_show_certificate_available_date_field]
    (test_api.py, lines 115-120): (feature_enabled, is_self_paced,
    expected_value). *)
Definition test_can_show_certificate_available_date_field_data
  : list (bool * bool * bool) :=
  [ (true, true, false);
    (true, false, true);
    (false, true, false);
    (false, false, false) ].

(** The body of the test (lines 122-127): set [self_paced] on the course,
    override the switch, compare. *)
Definition test_can_show_certificate_available_date_field
    (course : CourseOverview) (w : World) (row : bool * bool * bool) : bool :=
  let '(feature_enabled, is_self_paced, expected_value) := row in
  let course := mkOverview (overview_id course) is_self_paced in
  bool_decide (expected_value =
               eval (can_show_certificate_available_date_field course)
                    (set_auto_certificate_generation feature_enabled w)).

(** ** The route table of courseware_api/urls.py *)

Module views.
(** The view classes of [courseware_api.views] the table refers to. *)
Inductive View := CoursewareInformation | SequenceMetadata | Resume | Celebration.

Global Instance View_eq_dec : EqDecision View.
Proof. solve_decision. Defined.
End views.

(** [url(regex, view, name=...)] *)
Record URLPattern := url {
  regex : string;
  view : views.View;
  name : string;
}.

Definition USAGE_KEY_HASH_PATTERN : string := "[A-Za-z0-9_-]+".

Section Urls.

(** [settings.COURSE_KEY_PATTERN] and [settings.USAGE_KEY_PATTERN] are
    defined in the Django settings, outside the sources. *)
Variable COURSE_KEY_PATTERN : string.
Variable USAGE_KEY_PATTERN : string.

Definition SEQUENCE_KEY_OR_HASH_PATTERN : string :=
  USAGE_KEY_PATTERN +:+ "|" +:+ USAGE_KEY_HASH_PATTERN.

Definition urlpatterns : list URLPattern :=
  [ url ("^course/" +:+ COURSE_KEY_PATTERN)
        views.CoursewareInformation
        "courseware-api";
    url ("^sequence/" +:+ SEQUENCE_KEY_OR_HASH_PATTERN)
        views.SequenceMetadata
        "sequence-api";
    url ("^resume/" +:+ COURSE_KEY_PATTERN)
        views.Resume
        "resume-api";
    url ("^celebration/" +:+ COURSE_KEY_PATTERN)
        views.Celebration
        "celebration-api" ].

End Urls.

(** ** Specification-side notions *)

(** The certificate table satisfies the status invariant. *)
Definition statuses_valid (w : World) : Prop :=
  map_Forall (fun _ f => status f ∈ CertificateStatuses.ALL_STATUSES) (certificates w).

(** The user holds a certificate for the course whose status is passing. *)
Definition has_passing_certificate (is_passing_status : Status -> bool)
    (w : World) (user : User) (course_id : CourseKey) : Prop :=
  exists f, certificates w !! (user, course_id) = Some f /\
            is_passing_status (status f) = true.

(** Two worlds agree on everything but the log. *)
Definition same_state (w1 w2 : World) : Prop :=
  auto_certificate_generation w1 = auto_certificate_generation w2 /\
  allowlist w1 = allowlist w2 /\
  certificates w1 = certificates w2 /\
  enrollments w1 = enrollments w2 /\
  self_generation_enabled w1 = self_generation_enabled w2 /\
  id_verification w1 = id_verification w2 /\
  calls w1 = calls w2.

(** The operation hands work to the certificate generation task queue. *)
Definition is_task_call (c : Call) : bool :=
  match c with
  | call_generate_allowlist_certificate_task _ _ => true
  | call_generate_certificate_task _ _ => true
  | _ => false
  end.

Definition is_failing_grade (signal : Signal) : bool :=
  match signal with
  | COURSE_GRADE_NOW_FAILED _ _ _ => true
  | _ => false
  end.

(** The setting a pacing-change signal writes; other signals write none. *)
Definition apply_pacing (settings : gmap CourseKey bool) (signal : Signal)
  : gmap CourseKey bool :=
  match signal with
  | COURSE_PACING_CHANGED o => <[overview_id o := self_paced o]> settings
  | _ => settings
  end.

(** The task an enrollment-track update to an eligible mode asks for. *)
Definition track_update_tasks (is_eligible_for_certificate : Mode -> bool)
    (signal : Signal) : list Call :=
  match signal with
  | ENROLLMENT_TRACK_UPDATED user course_key mode =>
      if is_eligible_for_certificate mode
      then [call_generate_certificate_task user course_key] else []
  | _ => []
  end.

Definition sample_signals : list Signal :=
  [ COURSE_GRADE_NOW_FAILED alice "course-v1:edX+Demo+2021" (mkGrade (3 # 10)%Q);
    COURSE_PACING_CHANGED (mkOverview "course-v1:edX+Demo+2021" true);
    LEARNER_NOW_VERIFIED alice;
    ENROLLMENT_TRACK_UPDATED bob "course-v1:edX+Demo+2021" "verified";
    COURSE_GRADE_NOW_PASSED alice "course-v1:edX+Demo+2021";
    post_save_CertificateAllowlist (mkAllowlistRow bob "course-v1:edX+Demo+2021");
    ENROLLMENT_TRACK_UPDATED alice "course-v1:edX+Demo+2021" "audit" ].

(** ** Properties *)

Ltac run :=
  cbv [exec eval mbind State_bind mret State_ret ret gets modify invoke log_info
       auto_certificate_generation_enabled is_on_certificate_allowlist
       certificate_for_student enrollment_mode_for_user enrollments_for_user
       user_status set_self_generation_enabled_for_course
       generate_allowlist_certificate_task generate_certificate_task
       mark_notpassing];
  cbn [fst snd auto_certificate_generation allowlist certificates enrollments
       self_generation_enabled id_verification calls log
       set_certificates set_self_generation_enabled set_calls set_log
       set_auto_certificate_generation set_id_verification
       cert_user cert_course_id cert_fields negb].

Lemma app_singleton_neq {A} (l : list A) (x : A) : l ++ [x] <> l.
Proof.
  intros H. apply (f_equal length) in H. rewrite length_app in H. simpl in H. lia.
Qed.

Ltac crush :=
  repeat match goal with
  | |- _ /\ _ => split
  | |- _ <-> _ => split
  | |- _ -> _ => intro
  | H : _ /\ _ |- _ => destruct H
  | H : ?l ++ [_] = ?l |- _ => by apply app_singleton_neq in H
  | H : ?l = ?l ++ [_] |- _ => symmetry in H; by apply app_singleton_neq in H
  | |- same_state _ _ => unfold same_state; cbn
  end; try done; try (by left); try (by right); try congruence.

Lemma string_app_nil_r (s : string) : s +:+ "" = s.
Proof.
  induction s as [|a s IH]; [done|].
  change (String a s +:+ "") with (String a (s +:+ "")). by rewrite IH.
Qed.

(** The loop of [_listen_for_id_verification_status_changed]: one log record
    and one task invocation per enrollment, in order. *)
Lemma for_each_enrollment_generates (user : User) (st : string)
    (l : list CourseEnrollment) (w : World) :
  exec (for_each l (fun enrollment =>
          log_info (log_id_verification (user_id user) (enr_course_id enrollment) st) ;;
          generate_certificate_task user (enr_course_id enrollment))) w =
  set_calls (fun cs => cs ++ map (fun e => call_generate_certificate_task user (enr_course_id e)) l)
    (set_log (fun rs => rs ++ map (fun e => log_id_verification (user_id user) (enr_course_id e) st) l)
       w).
Proof.
  revert w. induction l as [|e l IH]; intros w.
  - destruct w. run. unfold set_calls, set_log. cbn. by rewrite !app_nil_r.
  - specialize (IH (exec (log_info (log_id_verification (user_id user) (enr_course_id e) st) ;;
                          generate_certificate_task user (enr_course_id e)) w)).
    revert IH. cbn [for_each]. run. intros IH.
    destruct (for_each l _ _) as [u w1]. cbn in IH. subst w1.
    unfold set_calls, set_log. cbn. by rewrite <- !app_assoc.
Qed.

Lemma statuses_valid_same (w w' : World) :
  certificates w' = certificates w -> statuses_valid w -> statuses_valid w'.
Proof. unfold statuses_valid. by intros ->. Qed.

Lemma notpassing_in_ALL_STATUSES :
  CertificateStatuses.notpassing ∈ CertificateStatuses.ALL_STATUSES.
Proof. unfold CertificateStatuses.ALL_STATUSES. set_solver. Qed.

Lemma statuses_valid_mark_notpassing (self : GeneratedCertificate)
    (mode : option Mode) (grade : Q) (source : string) (w : World) :
  statuses_valid w -> statuses_valid (exec (mark_notpassing self mode grade source) w).
Proof.
  unfold statuses_valid. run. intros H.
  apply map_Forall_insert_2; [|done]. apply notpassing_in_ALL_STATUSES.
Qed.

Section Properties.

Variable is_passing_status : Status -> bool.
Variable is_eligible_for_certificate : Mode -> bool.

Lemma has_passing_certificate_lookup w user course_id :
  has_passing_certificate is_passing_status w user course_id <->
  match certificates w !! (user, course_id) with
  | Some f => is_passing_status (status f)
  | None => false
  end = true.
Proof.
  unfold has_passing_certificate. split.
  - intros (f & -> & Hp). exact Hp.
  - destruct (certificates w !! (user, course_id)) as [f|] eqn:E; [|discriminate].
    intros Hp. by exists f.
Qed.

(** C1. On COURSE_GRADE_NOW_PASSED for a user and a course,
    [listen_for_passing_grade] invokes
    [generate_certificate_task(user, course_id)] if and only if
    [auto_certificate_generation_enabled()] holds and the user has no
    certificate for the course whose status is a passing status; when such
    a certificate exists the receiver returns without invoking anything.
    In every case the receiver invokes either that one task or nothing,
    and leaves all state but the log as it was. *)
Theorem listen_for_passing_grade_generates_iff
    (user : User) (course_id : CourseKey) (w : World) :
  let w' := exec (listen_for_passing_grade is_passing_status user course_id) w in
  (calls w' = calls w ++ [call_generate_certificate_task user course_id] <->
   eval auto_certificate_generation_enabled w = true /\
   ~ has_passing_certificate is_passing_status w user course_id) /\
  (has_passing_certificate is_passing_status w user course_id ->
   same_state w' w /\
   eval (listen_for_passing_grade is_passing_status user course_id) w = None) /\
  (calls w' = calls w \/
   calls w' = calls w ++ [call_generate_certificate_task user course_id]) /\
  certificates w' = certificates w /\
  self_generation_enabled w' = self_generation_enabled w.
Proof.
  cbv zeta. rewrite has_passing_certificate_lookup.
  unfold listen_for_passing_grade. run.
  destruct (auto_certificate_generation w) eqn:Hflag; cbn [negb].
  - destruct (certificates w !! (user, course_id)) as [f|] eqn:Hcert; cbn.
    + destruct (is_passing_status (status f)) eqn:Hp; cbn; crush.
    + crush.
  - cbn. crush.
Qed.

(** C2. On COURSE_GRADE_NOW_FAILED for a user, a course and a grade,
    [_listen_for_failing_grade] marks the certificate notpassing, with the
    user's enrollment mode and [grade.percent], if and only if the user is
    not on the allowlist of the course and holds a certificate for it whose
    status is a passing status; in every other case the certificate table
    is left as it was and nothing is invoked. *)
Theorem listen_for_failing_grade_marks_iff
    (user : User) (course_id : CourseKey) (grade : CourseGrade) (w : World) :
  let w' := exec (_listen_for_failing_grade is_passing_status user course_id grade) w in
  let enrollment_mode := fst (eval (enrollment_mode_for_user user course_id) w) in
  let marked :=
    calls w' = calls w ++ [call_mark_notpassing user course_id enrollment_mode
                                                (percent grade) "notpassing_signal"] /\
    certificates w' =
      <[(user, course_id) := mkFields CertificateStatuses.notpassing enrollment_mode
                                      (Some (percent grade))]> (certificates w) in
  let eligible :=
    eval (is_on_certificate_allowlist user course_id) w = false /\
    has_passing_certificate is_passing_status w user course_id in
  (marked <-> eligible) /\
  (~ eligible -> certificates w' = certificates w /\ calls w' = calls w).
Proof.
  cbv zeta. rewrite has_passing_certificate_lookup.
  unfold _listen_for_failing_grade. run.
  destruct (bool_decide ((user, course_id) ∈ allowlist w)) eqn:Hlist; cbn.
  - crush.
  - destruct (certificates w !! (user, course_id)) as [f|] eqn:Hcert; cbn.
    + destruct (is_passing_status (status f)) eqn:Hp; cbn.
      * destruct (List.find _ (enrollments w)) as [e|]; cbn; crush; tauto.
      * crush.
    + crush.
Qed.

(** C3. When [auto_certificate_generation_enabled()] is false, each of the
    three feature-gated receivers (allowlist append, passing grade, learner
    verified) returns [None] at once: no task is invoked and no
    certificate, setting or any other part of the state changes. *)
Theorem feature_gated_receivers_return_early
    (instance : CertificateAllowlist) (user : User) (course_id : CourseKey)
    (w : World) :
  eval auto_certificate_generation_enabled w = false ->
  _listen_for_certificate_allowlist_append instance w = (None, w) /\
  listen_for_passing_grade is_passing_status user course_id w = (None, w) /\
  _listen_for_id_verification_status_changed user w = (None, w).
Proof.
  unfold _listen_for_certificate_allowlist_append, listen_for_passing_grade,
    _listen_for_id_verification_status_changed.
  run. intros ->. done.
Qed.

(** C4. On COURSE_PACING_CHANGED with an updated course overview,
    [_update_cert_settings_on_pacing_change] sets the self-generated
    certificates setting of that course to the course's [self_paced] flag
    (enabled if and only if the course is self-paced); the settings of
    other courses and every other table are left as they were, and the
    setter is the only operation invoked. *)
Theorem update_cert_settings_on_pacing_change_sets_flag
    (updated_course_overview : CourseOverview) (w : World) :
  let w' := exec (_update_cert_settings_on_pacing_change updated_course_overview) w in
  let course := overview_id updated_course_overview in
  self_generation_enabled w' !! course = Some (self_paced updated_course_overview) /\
  (self_generation_enabled w' !! course = Some true <->
   self_paced updated_course_overview = true) /\
  (forall other, other <> course ->
     self_generation_enabled w' !! other = self_generation_enabled w !! other) /\
  calls w' = calls w ++ [call_set_self_generation_enabled_for_course
                           course (self_paced updated_course_overview)] /\
  certificates w' = certificates w /\
  allowlist w' = allowlist w /\
  enrollments w' = enrollments w /\
  auto_certificate_generation w' = auto_certificate_generation w /\
  id_verification w' = id_verification w.
Proof.
  cbv zeta. unfold _update_cert_settings_on_pacing_change. run.
  rewrite lookup_insert_eq. split_and!; try done.
  - split; congruence.
  - intros other Hne. by rewrite lookup_insert_ne.
Qed.

(** C8. [_listen_for_failing_grade] is not gated by the feature flag:
    running it with the switch forced to any value gives the same result,
    the same certificate table and the same invocations as running it on
    the world as it is; the switch itself is only carried along. *)
Theorem listen_for_failing_grade_ignores_feature_flag
    (user : User) (course_id : CourseKey) (grade : CourseGrade)
    (w : World) (b : bool) :
  let handler := _listen_for_failing_grade is_passing_status user course_id grade in
  eval handler (set_auto_certificate_generation b w) = eval handler w /\
  exec handler (set_auto_certificate_generation b w) =
    set_auto_certificate_generation b (exec handler w) /\
  certificates (exec handler (set_auto_certificate_generation b w)) =
    certificates (exec handler w) /\
  calls (exec handler (set_auto_certificate_generation b w)) =
    calls (exec handler w).
Proof.
  cbv zeta. unfold _listen_for_failing_grade. run.
  destruct (bool_decide ((user, course_id) ∈ allowlist w)); cbn; [done|].
  destruct (certificates w !! (user, course_id)) as [f|]; cbn; [|done].
  destruct (is_passing_status (status f)); cbn; [|done].
  destruct (List.find _ (enrollments w)); cbn; done.
Qed.

(** C9. On ENROLLMENT_TRACK_UPDATED, [_listen_for_enrollment_mode_change]
    never touches the certificate table: it invokes
    [generate_certificate_task(user, course_key)] exactly when the new mode
    is eligible for a certificate and otherwise does nothing at all. *)
Theorem listen_for_enrollment_mode_change_never_revokes
    (user : User) (course_key : CourseKey) (mode : Mode) (w : World) :
  let w' := exec (_listen_for_enrollment_mode_change
                    is_eligible_for_certificate user course_key mode) w in
  certificates w' = certificates w /\
  calls w' = calls w ++
    (if is_eligible_for_certificate mode
     then [call_generate_certificate_task user course_key] else []) /\
  (calls w' = calls w ++ [call_generate_certificate_task user course_key] <->
   is_eligible_for_certificate mode = true) /\
  (is_eligible_for_certificate mode = false -> w' = w) /\
  same_state (set_calls (fun _ => calls w) w') w.
Proof.
  cbv zeta. unfold _listen_for_enrollment_mode_change.
  destruct (is_eligible_for_certificate mode); run.
  - crush.
  - rewrite app_nil_r. destruct w; crush.
Qed.

(** C10. On LEARNER_NOW_VERIFIED with the feature enabled,
    [_listen_for_id_verification_status_changed] invokes
    [generate_certificate_task(user, enrollment.course_id)] once for every
    course enrollment of the user, in order, and nothing else; the
    invocations are the same whatever the identity-verification service
    answers, the answer reaching the log only. *)
Theorem listen_for_id_verification_generates_per_enrollment
    (user : User) (w : World) :
  eval auto_certificate_generation_enabled w = true ->
  let handler := _listen_for_id_verification_status_changed user in
  calls (exec handler w) =
    calls w ++ map (fun e => call_generate_certificate_task user (enr_course_id e))
                   (eval (enrollments_for_user user) w) /\
  (forall e, e ∈ eval (enrollments_for_user user) w <->
             e ∈ enrollments w /\ enr_user e = user) /\
  (forall f, calls (exec handler (set_id_verification f w)) = calls (exec handler w)) /\
  (forall f, same_state (set_id_verification (id_verification w)
                           (exec handler (set_id_verification f w)))
                        (exec handler w)).
Proof.
  cbv zeta. unfold _listen_for_id_verification_status_changed.
  run. intros Hflag. rewrite Hflag. cbn [negb].
  pose proof (fun st w0 => for_each_enrollment_generates user st
    (List.filter (fun e => bool_decide (enr_user e = user)) (enrollments w)) w0) as Hloop.
  unfold exec in Hloop. split_and!.
  - specialize (Hloop (verification_status (id_verification w user)) w).
    destruct (for_each _ _ w) as [u w1]. cbn in Hloop. by subst w1.
  - intros e. rewrite !list_elem_of_In, filter_In, bool_decide_eq_true. done.
  - intros f.
    pose proof (Hloop (verification_status (f user)) (set_id_verification f w)) as H1.
    pose proof (Hloop (verification_status (id_verification w user)) w) as H2.
    destruct (for_each _ _ (set_id_verification f w)) as [u1 w1].
    destruct (for_each _ _ w) as [u2 w2]. cbn in H1, H2. by subst.
  - intros f.
    pose proof (Hloop (verification_status (f user)) (set_id_verification f w)) as H1.
    pose proof (Hloop (verification_status (id_verification w user)) w) as H2.
    destruct (for_each _ _ (set_id_verification f w)) as [u1 w1].
    destruct (for_each _ _ w) as [u2 w2]. cbn in H1, H2. subst. crush.
Qed.

(** C5. The status invariant: [ALL_STATUSES] is the enumeration of
    fourteen distinct statuses (deleted, deleting, downloadable, error,
    generating, notpassing, restricted, unavailable, auditing,
    audit_passing, audit_notpassing, unverified, invalidated, requesting),
    and when every certificate's status belongs to it, this still holds
    after [mark_notpassing] and after each of the six receivers, in
    particular after a failing grade marked a certificate notpassing. *)
Theorem certificate_statuses_invariant
    (w : World) (updated_course_overview : CourseOverview)
    (instance : CertificateAllowlist) (user : User) (course_id : CourseKey)
    (grade : CourseGrade) (new_mode : Mode) (cert : GeneratedCertificate)
    (cert_mode : option Mode) (cert_grade : Q) (source : string) :
  statuses_valid w ->
  CertificateStatuses.ALL_STATUSES =
    [ "deleted"; "deleting"; "downloadable"; "error"; "generating"; "notpassing";
      "restricted"; "unavailable"; "auditing"; "audit_passing"; "audit_notpassing";
      "unverified"; "invalidated"; "requesting" ] /\
  length CertificateStatuses.ALL_STATUSES = 14 /\
  NoDup CertificateStatuses.ALL_STATUSES /\
  statuses_valid (exec (mark_notpassing cert cert_mode cert_grade source) w) /\
  statuses_valid (exec (_update_cert_settings_on_pacing_change updated_course_overview) w) /\
  statuses_valid (exec (_listen_for_certificate_allowlist_append instance) w) /\
  statuses_valid (exec (listen_for_passing_grade is_passing_status user course_id) w) /\
  statuses_valid (exec (_listen_for_failing_grade is_passing_status user course_id grade) w) /\
  statuses_valid (exec (_listen_for_id_verification_status_changed user) w) /\
  statuses_valid (exec (_listen_for_enrollment_mode_change
                          is_eligible_for_certificate user course_id new_mode) w).
Proof.
  intros Hw. split_and!.
  - reflexivity.
  - reflexivity.
  - compute_done.
  - by apply statuses_valid_mark_notpassing.
  - revert Hw. by apply statuses_valid_same.
  - revert Hw. apply statuses_valid_same.
    unfold _listen_for_certificate_allowlist_append. run.
    destruct (auto_certificate_generation w); cbn; [|done].
    destruct (bool_decide _); done.
  - revert Hw. apply statuses_valid_same.
    unfold listen_for_passing_grade. run.
    destruct (auto_certificate_generation w); cbn; [|done].
    destruct (certificates w !! (user, course_id)) as [f|]; cbn; [|done].
    destruct (is_passing_status (status f)); done.
  - unfold _listen_for_failing_grade. run.
    destruct (bool_decide _); cbn; [done|].
    destruct (certificates w !! (user, course_id)) as [f|]; cbn; [|done].
    destruct (is_passing_status (status f)); cbn; [|done].
    destruct (List.find _ (enrollments w)) as [e|]; cbn.
    + apply (statuses_valid_mark_notpassing (mkCert user course_id f)
               (Some (enr_mode e)) (percent grade) "notpassing_signal") in Hw.
      revert Hw. by apply statuses_valid_same.
    + apply (statuses_valid_mark_notpassing (mkCert user course_id f)
               None (percent grade) "notpassing_signal") in Hw.
      revert Hw. by apply statuses_valid_same.
  - revert Hw. apply statuses_valid_same.
    unfold _listen_for_id_verification_status_changed. run.
    destruct (auto_certificate_generation w); cbn; [|done].
    pose proof (for_each_enrollment_generates user
      (verification_status (id_verification w user))
      (List.filter (fun e => bool_decide (enr_user e = user)) (enrollments w)) w) as Hloop.
    unfold exec in Hloop. destruct (for_each _ _ w) as [u w1]. cbn in Hloop. by subst w1.
  - revert Hw. apply statuses_valid_same.
    unfold _listen_for_enrollment_mode_change.
    destruct (is_eligible_for_certificate new_mode); done.
Qed.

End Properties.

(** C6. For every course, [can_show_certificate_available_date_field]
    answers true if and only if the auto-certificate-generation feature is
    enabled and the course is not self-paced; for a self-paced course it
    answers false whatever the flag is.  It reads the state only, and it
    passes the four rows of its data-driven test. *)
Theorem can_show_certificate_available_date_field_iff
    (course : CourseOverview) (w : World) :
  (eval (can_show_certificate_available_date_field course) w = true <->
   eval auto_certificate_generation_enabled w = true /\ self_paced course = false) /\
  (self_paced course = true ->
   forall b, eval (can_show_certificate_available_date_field course)
                  (set_auto_certificate_generation b w) = false) /\
  exec (can_show_certificate_available_date_field course) w = w /\
  Forall (fun row => test_can_show_certificate_available_date_field course w row = true)
         test_can_show_certificate_available_date_field_data.
Proof.
  unfold can_show_certificate_available_date_field, test_can_show_certificate_available_date_field_data.
  run. split_and!.
  - destruct (auto_certificate_generation w), (self_paced course); cbn; crush.
  - intros -> b. by destruct b.
  - by destruct (auto_certificate_generation w).
  - repeat constructor.
Qed.

(** C7. The URL table has exactly four routes: the course-metadata,
    sequence-metadata, resume-position and celebration patterns, mapped in
    this order to the views [CoursewareInformation], [SequenceMetadata],
    [Resume] and [Celebration]; each pattern is a literal prefix followed by
    the course-key pattern of the settings or, for the sequence route, by
    the usage-key pattern of the settings (with the local hash pattern as an
    alternative). *)
Theorem urlpatterns_four_routes (COURSE_KEY_PATTERN USAGE_KEY_PATTERN : string) :
  let table := urlpatterns COURSE_KEY_PATTERN USAGE_KEY_PATTERN in
  length table = 4 /\
  map (fun r => (name r, view r)) table =
    [ ("courseware-api", views.CoursewareInformation);
      ("sequence-api", views.SequenceMetadata);
      ("resume-api", views.Resume);
      ("celebration-api", views.Celebration) ] /\
  map regex table =
    [ "^course/" +:+ COURSE_KEY_PATTERN;
      "^sequence/" +:+ USAGE_KEY_PATTERN +:+ "|[A-Za-z0-9_-]+";
      "^resume/" +:+ COURSE_KEY_PATTERN;
      "^celebration/" +:+ COURSE_KEY_PATTERN ] /\
  Forall (fun r => exists prefix suffix key,
            (key = COURSE_KEY_PATTERN \/ key = USAGE_KEY_PATTERN) /\
            regex r = prefix +:+ key +:+ suffix) table /\
  NoDup (map view table) /\
  (forall v : views.View, v ∈ map view table).
Proof.
  cbv zeta. unfold urlpatterns, SEQUENCE_KEY_OR_HASH_PATTERN, USAGE_KEY_HASH_PATTERN.
  cbn [map length regex view name]. split_and!; try reflexivity.
  - repeat apply Forall_cons_2; [ | | | | apply Forall_nil_2 ].
    + exists "^course/", "", COURSE_KEY_PATTERN. rewrite string_app_nil_r. auto.
    + exists "^sequence/", "|[A-Za-z0-9_-]+", USAGE_KEY_PATTERN. auto.
    + exists "^resume/", "", COURSE_KEY_PATTERN. rewrite string_app_nil_r. auto.
    + exists "^celebration/", "", COURSE_KEY_PATTERN. rewrite string_app_nil_r. auto.
  - compute_done.
  - intros []; set_solver.
Qed.

(** ** The theorems at the sample data *)

Lemma statuses_valid_sample_world : statuses_valid sample_world.
Proof.
  unfold statuses_valid, sample_world. cbn [certificates].
  repeat (apply map_Forall_insert_2; [cbn; set_solver|]).
  apply map_Forall_empty.
Qed.

Example failing_grade_marks_alice :
  let w' := exec (_listen_for_failing_grade sample_passing_status alice
                    "course-v1:edX+Demo+2021" (mkGrade (3 # 10)%Q)) sample_world in
  certificates w' !! (alice, "course-v1:edX+Demo+2021") =
    Some (mkFields "notpassing" (Some "verified") (Some (3 # 10)%Q)) /\
  calls w' = [call_mark_notpassing alice "course-v1:edX+Demo+2021" (Some "verified")
                                   (3 # 10)%Q "notpassing_signal"].
Proof. split; reflexivity. Qed.

Example failing_grade_spares_allowlisted_bob :
  let w' := exec (_listen_for_failing_grade sample_passing_status bob
                    "course-v1:edX+Demo+2021" (mkGrade (3 # 10)%Q)) sample_world in
  certificates w' = certificates sample_world /\ calls w' = [].
Proof. split; reflexivity. Qed.

Example passing_grade_alice_already_passing :
  calls (exec (listen_for_passing_grade sample_passing_status alice
                 "course-v1:edX+Demo+2021") sample_world) = [].
Proof. reflexivity. Qed.

Example passing_grade_alice_other_course :
  calls (exec (listen_for_passing_grade sample_passing_status alice
                 "course-v1:edX+Other+2021") sample_world) =
  [call_generate_certificate_task alice "course-v1:edX+Other+2021"].
Proof. reflexivity. Qed.

Example enrollment_mode_change_to_audit :
  exec (_listen_for_enrollment_mode_change sample_eligible_mode alice
          "course-v1:edX+Demo+2021" "audit") sample_world = sample_world.
Proof. reflexivity. Qed.

Lemma feature_gated_receivers_return_early_witness :
  eval auto_certificate_generation_enabled sample_world_disabled = false /\
  _listen_for_certificate_allowlist_append
    (mkAllowlistRow bob "course-v1:edX+Demo+2021") sample_world_disabled =
    (None, sample_world_disabled) /\
  listen_for_passing_grade sample_passing_status alice "course-v1:edX+Other+2021"
    sample_world_disabled = (None, sample_world_disabled) /\
  _listen_for_id_verification_status_changed alice sample_world_disabled =
    (None, sample_world_disabled).
Proof.
  split; [reflexivity|].
  apply (feature_gated_receivers_return_early sample_passing_status
           (mkAllowlistRow bob "course-v1:edX+Demo+2021") alice
           "course-v1:edX+Other+2021" sample_world_disabled).
  reflexivity.
Defined.

Lemma certificate_statuses_invariant_witness :
  statuses_valid sample_world /\
  statuses_valid (exec (_listen_for_failing_grade sample_passing_status alice
                          "course-v1:edX+Demo+2021" (mkGrade (3 # 10)%Q)) sample_world).
Proof.
  split; [exact statuses_valid_sample_world|].
  exact (proj1 (proj2 (proj2 (proj2 (proj2 (proj2 (proj2 (proj2
    (certificate_statuses_invariant sample_passing_status sample_eligible_mode
       sample_world (mkOverview "course-v1:edX+Demo+2021" true)
       (mkAllowlistRow bob "course-v1:edX+Demo+2021") alice
       "course-v1:edX+Demo+2021" (mkGrade (3 # 10)%Q) "audit"
       (mkCert alice "course-v1:edX+Demo+2021"
               (mkFields "downloadable" (Some "verified") None))
       (Some "verified") (3 # 10)%Q "notpassing_signal"
       statuses_valid_sample_world))))))))).
Defined.

Lemma listen_for_id_verification_generates_per_enrollment_witness :
  eval auto_certificate_generation_enabled sample_world = true /\
  calls (exec (_listen_for_id_verification_status_changed alice) sample_world) =
    [ call_generate_certificate_task alice "course-v1:edX+Demo+2021";
      call_generate_certificate_task alice "course-v1:edX+Other+2021" ].
Proof.
  split; [reflexivity|].
  exact (proj1 (listen_for_id_verification_generates_per_enrollment alice sample_world
                  eq_refl)).
Defined.

(** ** Further properties of the receivers *)

Lemma exec_id_verification_status_changed (user : User) (w : World) :
  exec (_listen_for_id_verification_status_changed user) w =
  if auto_certificate_generation w then
    set_calls (fun cs => cs ++ map (fun e => call_generate_certificate_task user (enr_course_id e))
                                   (eval (enrollments_for_user user) w))
      (set_log (fun rs => rs ++ map (fun e => log_id_verification (user_id user) (enr_course_id e)
                                                (verification_status (id_verification w user)))
                                    (eval (enrollments_for_user user) w))
         w)
  else w.
Proof.
  unfold _listen_for_id_verification_status_changed. run.
  destruct (auto_certificate_generation w); cbn [negb]; [|done].
  pose proof (for_each_enrollment_generates user
    (verification_status (id_verification w user))
    (List.filter (fun e => bool_decide (enr_user e = user)) (enrollments w)) w) as Hloop.
  unfold exec in Hloop. destruct (for_each _ _ w) as [u w1]. cbn in Hloop. by subst w1.
Qed.

Section Sequences.

Variable is_passing_status : Status -> bool.
Variable is_eligible_for_certificate : Mode -> bool.

Abbreviation dispatch' := (dispatch is_passing_status is_eligible_for_certificate).
Abbreviation dispatch_all' := (dispatch_all is_passing_status is_eligible_for_certificate).

Lemma exec_dispatch_all_cons (signal : Signal) (signals : list Signal) (w : World) :
  exec (dispatch_all' (signal :: signals)) w =
  exec (dispatch_all' signals) (exec (dispatch' signal) w).
Proof.
  unfold dispatch_all. cbn [for_each]. run. by destruct (dispatch _ _ signal w).
Qed.

Lemma exec_dispatch_all_app (l1 l2 : list Signal) (w : World) :
  exec (dispatch_all' (l1 ++ l2)) w =
  exec (dispatch_all' l2) (exec (dispatch_all' l1) w).
Proof.
  revert w. induction l1 as [|s l1 IH]; intros w; [done|].
  cbn [app]. by rewrite !exec_dispatch_all_cons, IH.
Qed.

(** What no receiver writes, and what receivers only extend. *)
Lemma dispatch_frame (signal : Signal) (w : World) :
  let w' := exec (dispatch' signal) w in
  auto_certificate_generation w' = auto_certificate_generation w /\
  allowlist w' = allowlist w /\
  enrollments w' = enrollments w /\
  id_verification w' = id_verification w /\
  calls w `prefix_of` calls w' /\
  log w `prefix_of` log w'.
Proof.
  cbv zeta. destruct signal as [o|i|u c|u c g|u|u c m]; cbn [dispatch].
  - unfold _update_cert_settings_on_pacing_change. run.
    split_and!; try done; by apply prefix_app_r.
  - unfold _listen_for_certificate_allowlist_append. run.
    destruct (auto_certificate_generation w) eqn:Hf; cbn; [|by rewrite Hf].
    destruct (bool_decide _); cbn; rewrite ?Hf; split_and!; try done; by apply prefix_app_r.
  - unfold listen_for_passing_grade. run.
    destruct (auto_certificate_generation w) eqn:Hf; cbn; [|by rewrite Hf].
    destruct (certificates w !! (u, c)) as [f|]; cbn;
      [destruct (is_passing_status (status f)); cbn|];
      rewrite ?Hf; split_and!; try done; by apply prefix_app_r.
  - unfold _listen_for_failing_grade. run.
    destruct (bool_decide _); cbn; [split_and!; try done; by apply prefix_app_r|].
    destruct (certificates w !! (u, c)) as [f|]; cbn; [|done].
    destruct (is_passing_status (status f)); cbn; [|done].
    destruct (List.find _ (enrollments w)); cbn;
      split_and!; try done; by apply prefix_app_r.
  - rewrite exec_id_verification_status_changed.
    destruct (auto_certificate_generation w) eqn:Hf; cbn; rewrite ?Hf; [|done].
    split_and!; try done; by apply prefix_app_r.
  - unfold _listen_for_enrollment_mode_change.
    destruct (is_eligible_for_certificate m); run; [|done].
    split_and!; try done; by apply prefix_app_r.
Qed.

(** The settings table is written by pacing changes only. *)
Lemma dispatch_settings (signal : Signal) (w : World) :
  self_generation_enabled (exec (dispatch' signal) w) =
  apply_pacing (self_generation_enabled w) signal.
Proof.
  destruct signal as [o|i|u c|u c g|u|u c m]; cbn [dispatch apply_pacing].
  - done.
  - unfold _listen_for_certificate_allowlist_append. run.
    destruct (auto_certificate_generation w); cbn; [|done].
    by destruct (bool_decide _).
  - unfold listen_for_passing_grade. run.
    destruct (auto_certificate_generation w); cbn; [|done].
    destruct (certificates w !! (u, c)) as [f|]; cbn; [|done].
    by destruct (is_passing_status (status f)).
  - unfold _listen_for_failing_grade. run.
    destruct (bool_decide _); cbn; [done|].
    destruct (certificates w !! (u, c)) as [f|]; cbn; [|done].
    destruct (is_passing_status (status f)); cbn; [|done].
    by destruct (List.find _ (enrollments w)).
  - rewrite exec_id_verification_status_changed.
    by destruct (auto_certificate_generation w).
  - unfold _listen_for_enrollment_mode_change.
    by destruct (is_eligible_for_certificate m).
Qed.

(** The certificate table is written by failing grades only. *)
Lemma dispatch_certificates (signal : Signal) (w : World) :
  is_failing_grade signal = false ->
  certificates (exec (dispatch' signal) w) = certificates w.
Proof.
  destruct signal as [o|i|u c|u c g|u|u c m]; cbn [dispatch is_failing_grade]; intros Hs.
  - done.
  - unfold _listen_for_certificate_allowlist_append. run.
    destruct (auto_certificate_generation w); cbn; [|done].
    by destruct (bool_decide _).
  - unfold listen_for_passing_grade. run.
    destruct (auto_certificate_generation w); cbn; [|done].
    destruct (certificates w !! (u, c)) as [f|]; cbn; [|done].
    by destruct (is_passing_status (status f)).
  - discriminate.
  - rewrite exec_id_verification_status_changed.
    by destruct (auto_certificate_generation w).
  - unfold _listen_for_enrollment_mode_change.
    by destruct (is_eligible_for_certificate m).
Qed.

Lemma dispatch_statuses_valid (signal : Signal) (w : World) :
  statuses_valid w -> statuses_valid (exec (dispatch' signal) w).
Proof.
  intros Hw. destruct (is_failing_grade signal) eqn:Hs.
  - destruct signal as [o|i|u c|u c g|u|u c m]; try discriminate.
    cbn [dispatch]. unfold _listen_for_failing_grade. run.
    destruct (bool_decide _); cbn; [done|].
    destruct (certificates w !! (u, c)) as [f|]; cbn; [|done].
    destruct (is_passing_status (status f)); cbn; [|done].
    destruct (List.find _ (enrollments w)) as [e|]; cbn.
    + apply (statuses_valid_mark_notpassing (mkCert u c f)
               (Some (enr_mode e)) (percent g) "notpassing_signal") in Hw.
      revert Hw. by apply statuses_valid_same.
    + apply (statuses_valid_mark_notpassing (mkCert u c f)
               None (percent g) "notpassing_signal") in Hw.
      revert Hw. by apply statuses_valid_same.
  - revert Hw. apply statuses_valid_same. by apply dispatch_certificates.
Qed.

(** With the switch off, the only tasks a receiver asks for are those of an
    enrollment-track update. *)
Lemma dispatch_tasks_when_disabled (signal : Signal) (w : World) :
  auto_certificate_generation w = false ->
  List.filter is_task_call (calls (exec (dispatch' signal) w)) =
  List.filter is_task_call (calls w) ++
  track_update_tasks is_eligible_for_certificate signal.
Proof.
  intros Hf.
  destruct signal as [o|i|u c|u c g|u|u c m]; cbn [dispatch track_update_tasks].
  - unfold _update_cert_settings_on_pacing_change. run.
    by rewrite List.filter_app.
  - unfold _listen_for_certificate_allowlist_append. run.
    rewrite Hf. cbn. by rewrite app_nil_r.
  - unfold listen_for_passing_grade. run. rewrite Hf. cbn. by rewrite app_nil_r.
  - unfold _listen_for_failing_grade. run. rewrite app_nil_r.
    destruct (bool_decide _); cbn; [done|].
    destruct (certificates w !! (u, c)) as [f|]; cbn; [|done].
    destruct (is_passing_status (status f)); cbn; [|done].
    destruct (List.find _ (enrollments w)); cbn;
      rewrite List.filter_app; cbn; by rewrite app_nil_r.
  - rewrite exec_id_verification_status_changed, Hf. by rewrite app_nil_r.
  - unfold _listen_for_enrollment_mode_change.
    destruct (is_eligible_for_certificate m); run.
    + by rewrite List.filter_app.
    + by rewrite app_nil_r.
Qed.


(** X9. Whatever signals arrive, in whatever order, the receivers never
    write the feature switch, the allowlist, the enrollment table or the
    verification service, and they only append to the trace of invoked
    operations and to the log. *)
Theorem dispatch_all_frame (signals : list Signal) (w : World) :
  let w' := exec (dispatch_all' signals) w in
  auto_certificate_generation w' = auto_certificate_generation w /\
  allowlist w' = allowlist w /\
  enrollments w' = enrollments w /\
  id_verification w' = id_verification w /\
  calls w `prefix_of` calls w' /\
  log w `prefix_of` log w'.
Proof.
  cbv zeta. revert w. induction signals as [|s signals IH]; intros w.
  - by split_and!.
  - rewrite exec_dispatch_all_cons.
    destruct (IH (exec (dispatch' s) w)) as (-> & -> & -> & -> & Hc & Hl).
    destruct (dispatch_frame s w) as (-> & -> & -> & -> & Hc' & Hl').
    split_and!; try done; by etrans.
Qed.

(** X10. The status invariant survives every sequence of signals. *)
Theorem dispatch_all_statuses_valid (signals : list Signal) (w : World) :
  statuses_valid w -> statuses_valid (exec (dispatch_all' signals) w).
Proof.
  revert w. induction signals as [|s signals IH]; intros w Hw; [done|].
  rewrite exec_dispatch_all_cons. by apply IH, dispatch_statuses_valid.
Qed.

(** X11. With the feature switch off, the certificate generation tasks asked for
    over any sequence of signals are exactly those of its enrollment-track
    updates to an eligible mode, in order: that receiver is not gated, and
    no other receiver asks for a task. *)
Theorem dispatch_all_tasks_when_disabled (signals : list Signal) (w : World) :
  auto_certificate_generation w = false ->
  List.filter is_task_call (calls (exec (dispatch_all' signals) w)) =
  List.filter is_task_call (calls w) ++
  flat_map (track_update_tasks is_eligible_for_certificate) signals.
Proof.
  revert w. induction signals as [|s signals IH]; intros w Hf.
  - cbn. by rewrite app_nil_r.
  - rewrite exec_dispatch_all_cons, IH.
    + rewrite dispatch_tasks_when_disabled by done. cbn [flat_map]. by rewrite app_assoc.
    + destruct (dispatch_frame s w) as (-> & _). done.
Qed.

(** X12. The self-generation settings after any sequence of signals are the
    settings at the start overwritten by the pacing changes of the sequence,
    in order; a course no pacing change names keeps its setting. *)
Theorem dispatch_all_settings (signals : list Signal) (w : World) :
  let w' := exec (dispatch_all' signals) w in
  self_generation_enabled w' = foldl apply_pacing (self_generation_enabled w) signals /\
  forall course,
    (forall o, COURSE_PACING_CHANGED o ∈ signals -> overview_id o <> course) ->
    self_generation_enabled w' !! course = self_generation_enabled w !! course.
Proof.
  cbv zeta.
  assert (Hfold : forall w0, self_generation_enabled (exec (dispatch_all' signals) w0) =
                             foldl apply_pacing (self_generation_enabled w0) signals).
  { induction signals as [|s signals IH]; intros w0; [done|].
    by rewrite exec_dispatch_all_cons, IH, dispatch_settings. }
  split; [apply Hfold|].
  intros course. rewrite Hfold. generalize (self_generation_enabled w) as settings.
  clear Hfold. induction signals as [|s signals IH]; intros settings Hno; [done|].
  cbn [foldl]. rewrite IH.
  - destruct s as [o|i|u c|u c g|u|u c m]; cbn [apply_pacing]; try done.
    apply lookup_insert_ne, Hno. left.
  - intros o Ho. apply Hno. by right.
Qed.


End Sequences.

Section ReceiverProperties.

Variable is_passing_status : Status -> bool.
Variable is_eligible_for_certificate : Mode -> bool.

Lemma exec_listen_for_failing_grade (user : User) (course_id : CourseKey)
    (grade : CourseGrade) (w : World) :
  exec (_listen_for_failing_grade is_passing_status user course_id grade) w =
  if bool_decide ((user, course_id) ∈ allowlist w) then
    set_log (fun rs => rs ++ [log_failing_grade_allowlisted (user_id user) course_id]) w
  else
    match certificates w !! (user, course_id) with
    | Some f =>
        if is_passing_status (status f) then
          let enrollment_mode := fst (eval (enrollment_mode_for_user user course_id) w) in
          set_log (fun rs => rs ++ [log_marked_not_passing (user_id user) course_id])
            (set_certificates
               <[(user, course_id) := mkFields CertificateStatuses.notpassing enrollment_mode
                                               (Some (percent grade))]>
               (set_calls (fun cs => cs ++ [call_mark_notpassing user course_id enrollment_mode
                                              (percent grade) "notpassing_signal"]) w))
        else w
    | None => w
    end.
Proof.
  unfold _listen_for_failing_grade. run.
  destruct (bool_decide _); cbn; [done|].
  destruct (certificates w !! (user, course_id)) as [f|]; cbn; [|done].
  destruct (is_passing_status (status f)); cbn; [|done].
  by destruct (List.find _ (enrollments w)).
Qed.

Lemma calls_listen_for_passing_grade (user : User) (course_id : CourseKey) (w : World) :
  calls (exec (listen_for_passing_grade is_passing_status user course_id) w) =
  calls w ++
  if auto_certificate_generation w &&
     negb (match certificates w !! (user, course_id) with
           | Some f => is_passing_status (status f)
           | None => false
           end)
  then [call_generate_certificate_task user course_id] else [].
Proof.
  unfold listen_for_passing_grade. run.
  destruct (auto_certificate_generation w); cbn; [|by rewrite app_nil_r].
  destruct (certificates w !! (user, course_id)) as [f|]; cbn; [|done].
  destruct (is_passing_status (status f)); cbn; [by rewrite app_nil_r|done].
Qed.

(** X1. On a saved allowlist row, [_listen_for_certificate_allowlist_append]
    asks for an allowlist certificate for the row's user and course if and
    only if the feature is enabled and that pair is on the allowlist; it
    then returns the task's result, and otherwise returns [None] having
    invoked nothing.  Apart from trace and log it changes nothing. *)
Theorem listen_for_certificate_allowlist_append_generates_iff
    (instance : CertificateAllowlist) (w : World) :
  let handler := _listen_for_certificate_allowlist_append instance in
  let w' := exec handler w in
  let task := call_generate_allowlist_certificate_task
                (al_user instance) (al_course_id instance) in
  let wanted :=
    eval auto_certificate_generation_enabled w = true /\
    (al_user instance, al_course_id instance) ∈ allowlist w in
  (calls w' = calls w ++ [task] <-> wanted) /\
  (calls w' = calls w <-> ~ wanted) /\
  (eval handler w = Some tt <-> wanted) /\
  same_state (set_calls (fun _ => calls w) w') w.
Proof.
  cbv zeta. unfold _listen_for_certificate_allowlist_append. run.
  destruct (auto_certificate_generation w) eqn:Hf; cbn.
  - destruct (bool_decide _) eqn:Hl; cbn.
    + apply bool_decide_eq_true in Hl. crush; exfalso; tauto.
    + apply bool_decide_eq_false in Hl. crush; tauto.
  - crush; intros [? _]; discriminate.
Qed.

(** X2. A failing grade for one user and course never touches the certificate
    of another user or of another course. *)
Theorem listen_for_failing_grade_other_rows
    (user : User) (course_id : CourseKey) (grade : CourseGrade) (w : World)
    (key : User * CourseKey) :
  key <> (user, course_id) ->
  certificates (exec (_listen_for_failing_grade is_passing_status user course_id grade) w)
    !! key = certificates w !! key.
Proof.
  intros Hne. rewrite exec_listen_for_failing_grade.
  destruct (bool_decide _); cbn; [done|].
  destruct (certificates w !! (user, course_id)) as [f|]; cbn; [|done].
  destruct (is_passing_status (status f)); cbn; [|done].
  by rewrite lookup_insert_ne.
Qed.

(** X3. When [notpassing] is not a passing status, a failing grade that is
    signalled again finds nothing to do: the second run invokes nothing and
    leaves the certificate table as the first run left it. *)
Theorem listen_for_failing_grade_idempotent
    (user : User) (course_id : CourseKey) (grade grade' : CourseGrade) (w : World) :
  is_passing_status CertificateStatuses.notpassing = false ->
  let w1 := exec (_listen_for_failing_grade is_passing_status user course_id grade) w in
  let w2 := exec (_listen_for_failing_grade is_passing_status user course_id grade') w1 in
  certificates w2 = certificates w1 /\ calls w2 = calls w1.
Proof.
  intros Hnp. cbv zeta.
  rewrite (exec_listen_for_failing_grade user course_id grade' _).
  rewrite (exec_listen_for_failing_grade user course_id grade w).
  destruct (bool_decide ((user, course_id) ∈ allowlist w)) eqn:Hl; cbn.
  - by rewrite Hl.
  - destruct (certificates w !! (user, course_id)) as [f|] eqn:Hc; cbn.
    + destruct (is_passing_status (status f)) eqn:Hp; cbn.
      * rewrite Hl, lookup_insert_eq. cbn. by rewrite Hnp.
      * by rewrite Hl, Hc, Hp.
    + by rewrite Hl, Hc.
Qed.

(** X4. For a user who is not on the allowlist, with the feature enabled and
    [notpassing] not a passing status, a passing grade that follows a
    failing grade always asks for a certificate: whatever certificate the
    user held, the failing grade left none with a passing status. *)
Theorem passing_grade_after_failing_grade_generates
    (user : User) (course_id : CourseKey) (grade : CourseGrade) (w : World) :
  eval auto_certificate_generation_enabled w = true ->
  is_passing_status CertificateStatuses.notpassing = false ->
  eval (is_on_certificate_allowlist user course_id) w = false ->
  let w1 := exec (_listen_for_failing_grade is_passing_status user course_id grade) w in
  calls (exec (listen_for_passing_grade is_passing_status user course_id) w1) =
  calls w1 ++ [call_generate_certificate_task user course_id].
Proof.
  intros Hf Hnp Hl. cbv zeta.
  unfold eval, auto_certificate_generation_enabled, is_on_certificate_allowlist, gets in Hf, Hl.
  cbn in Hf, Hl. rewrite calls_listen_for_passing_grade.
  rewrite exec_listen_for_failing_grade, Hl.
  destruct (certificates w !! (user, course_id)) as [f|] eqn:Hc; cbn.
  - destruct (is_passing_status (status f)) eqn:Hp; cbn.
    + rewrite Hf, lookup_insert_eq. cbn. by rewrite Hnp.
    + by rewrite Hf, Hc, Hp.
  - by rewrite Hf, Hc.
Qed.

(** X5. Pacing changes compose by overwriting: of two changes of the same course
    the later one alone decides the setting, and changes of different
    courses give the same settings in either order. *)
Theorem pacing_changes_compose (o1 o2 : CourseOverview) (w : World) :
  let after o w0 := exec (_update_cert_settings_on_pacing_change o) w0 in
  (overview_id o1 = overview_id o2 ->
   self_generation_enabled (after o2 (after o1 w)) =
   self_generation_enabled (after o2 w)) /\
  (overview_id o1 <> overview_id o2 ->
   self_generation_enabled (after o2 (after o1 w)) =
   self_generation_enabled (after o1 (after o2 w))).
Proof.
  cbv zeta. unfold _update_cert_settings_on_pacing_change. run. split.
  - intros ->. apply insert_insert_eq.
  - intros Hne. by apply insert_insert_ne.
Qed.


(** X7. For a user without any enrollment, LEARNER_NOW_VERIFIED changes nothing
    at all, feature enabled or not: no task, no log record. *)
Theorem listen_for_id_verification_without_enrollments (user : User) (w : World) :
  (forall e, e ∈ enrollments w -> enr_user e <> user) ->
  _listen_for_id_verification_status_changed user w = (None, w).
Proof.
  intros Hnone.
  assert (Hfilter : List.filter (fun e => bool_decide (enr_user e = user)) (enrollments w) = []).
  { induction (enrollments w) as [|e l IH]; [done|]. cbn.
    rewrite bool_decide_eq_false_2 by (apply Hnone; left).
    apply IH. intros e' He'. apply Hnone. by right. }
  unfold _listen_for_id_verification_status_changed. run.
  destruct (auto_certificate_generation w); cbn; [|done].
  by rewrite Hfilter.
Qed.

(** X8. With the feature enabled, LEARNER_NOW_VERIFIED writes one log record per
    enrollment of the user, each carrying the verification status that was
    read once before the loop, and as many log records as tasks. *)
Theorem listen_for_id_verification_logs_status (user : User) (w : World) :
  eval auto_certificate_generation_enabled w = true ->
  let w' := exec (_listen_for_id_verification_status_changed user) w in
  log w' = log w ++
    map (fun e => log_id_verification (user_id user) (enr_course_id e)
                    (verification_status (eval (user_status user) w)))
        (eval (enrollments_for_user user) w) /\
  length (log w') - length (log w) = length (calls w') - length (calls w).
Proof.
  intros Hf. cbv zeta. rewrite exec_id_verification_status_changed.
  unfold eval, auto_certificate_generation_enabled, gets in Hf. cbn in Hf. rewrite Hf.
  cbn. split; [done|]. rewrite !length_app, !length_map. lia.
Qed.

End ReceiverProperties.


(** ** The further properties at the sample data *)

Example sample_signals_run :
  let w' := exec (dispatch_all sample_passing_status sample_eligible_mode sample_signals)
                 sample_world in
  calls w' =
    [ call_mark_notpassing alice "course-v1:edX+Demo+2021" (Some "verified")
                           (3 # 10)%Q "notpassing_signal";
      call_set_self_generation_enabled_for_course "course-v1:edX+Demo+2021" true;
      call_generate_certificate_task alice "course-v1:edX+Demo+2021";
      call_generate_certificate_task alice "course-v1:edX+Other+2021";
      call_generate_certificate_task bob "course-v1:edX+Demo+2021";
      call_generate_certificate_task alice "course-v1:edX+Demo+2021";
      call_generate_allowlist_certificate_task bob "course-v1:edX+Demo+2021" ] /\
  self_generation_enabled w' !! "course-v1:edX+Demo+2021" = Some true /\
  status <$> certificates w' !! (alice, "course-v1:edX+Demo+2021") = Some "notpassing" /\
  status <$> certificates w' !! (bob, "course-v1:edX+Demo+2021") = Some "generating".
Proof. cbv zeta. split_and!; reflexivity. Qed.

Lemma listen_for_failing_grade_other_rows_witness :
  (bob, "course-v1:edX+Demo+2021") <> (alice, "course-v1:edX+Demo+2021") /\
  certificates (exec (_listen_for_failing_grade sample_passing_status alice
                        "course-v1:edX+Demo+2021" (mkGrade (3 # 10)%Q)) sample_world)
    !! (bob, "course-v1:edX+Demo+2021") =
  certificates sample_world !! (bob, "course-v1:edX+Demo+2021").
Proof.
  split; [discriminate|].
  apply (listen_for_failing_grade_other_rows sample_passing_status alice
           "course-v1:edX+Demo+2021" (mkGrade (3 # 10)%Q) sample_world
           (bob, "course-v1:edX+Demo+2021")).
  discriminate.
Defined.

Lemma listen_for_failing_grade_idempotent_witness :
  sample_passing_status CertificateStatuses.notpassing = false /\
  let w1 := exec (_listen_for_failing_grade sample_passing_status alice
                    "course-v1:edX+Demo+2021" (mkGrade (3 # 10)%Q)) sample_world in
  let w2 := exec (_listen_for_failing_grade sample_passing_status alice
                    "course-v1:edX+Demo+2021" (mkGrade (1 # 10)%Q)) w1 in
  certificates w2 = certificates w1 /\ calls w2 = calls w1.
Proof.
  split; [reflexivity|].
  apply (listen_for_failing_grade_idempotent sample_passing_status alice
           "course-v1:edX+Demo+2021" (mkGrade (3 # 10)%Q) (mkGrade (1 # 10)%Q)
           sample_world).
  reflexivity.
Defined.

Lemma passing_grade_after_failing_grade_generates_witness :
  eval auto_certificate_generation_enabled sample_world = true /\
  sample_passing_status CertificateStatuses.notpassing = false /\
  eval (is_on_certificate_allowlist alice "course-v1:edX+Demo+2021") sample_world = false /\
  let w1 := exec (_listen_for_failing_grade sample_passing_status alice
                    "course-v1:edX+Demo+2021" (mkGrade (3 # 10)%Q)) sample_world in
  calls (exec (listen_for_passing_grade sample_passing_status alice
                 "course-v1:edX+Demo+2021") w1) =
  calls w1 ++ [call_generate_certificate_task alice "course-v1:edX+Demo+2021"].
Proof.
  split_and!; [reflexivity..|].
  apply (passing_grade_after_failing_grade_generates sample_passing_status alice
           "course-v1:edX+Demo+2021" (mkGrade (3 # 10)%Q) sample_world);
    reflexivity.
Defined.

Lemma listen_for_id_verification_without_enrollments_witness :
  Forall (fun e => enr_user e <> carol) (enrollments sample_world) /\
  _listen_for_id_verification_status_changed carol sample_world = (None, sample_world).
Proof.
  assert (H : Forall (fun e => enr_user e <> carol) (enrollments sample_world)).
  { repeat constructor; discriminate. }
  split; [exact H|].
  apply (listen_for_id_verification_without_enrollments carol sample_world).
  intros e He. exact (proj1 (Forall_forall _ _) H e He).
Defined.

Lemma listen_for_id_verification_logs_status_witness :
  eval auto_certificate_generation_enabled sample_world = true /\
  log (exec (_listen_for_id_verification_status_changed alice) sample_world) =
    [ log_id_verification 7 "course-v1:edX+Demo+2021" "approved";
      log_id_verification 7 "course-v1:edX+Other+2021" "approved" ].
Proof.
  split; [reflexivity|].
  exact (proj1 (listen_for_id_verification_logs_status alice sample_world eq_refl)).
Defined.

Lemma dispatch_all_statuses_valid_witness :
  statuses_valid sample_world /\
  statuses_valid (exec (dispatch_all sample_passing_status sample_eligible_mode
                          sample_signals) sample_world).
Proof.
  split; [exact statuses_valid_sample_world|].
  apply (dispatch_all_statuses_valid sample_passing_status sample_eligible_mode
           sample_signals sample_world).
  exact statuses_valid_sample_world.
Defined.

Lemma dispatch_all_tasks_when_disabled_witness :
  auto_certificate_generation sample_world_disabled = false /\
  List.filter is_task_call
    (calls (exec (dispatch_all sample_passing_status sample_eligible_mode sample_signals)
                 sample_world_disabled)) =
  [ call_generate_certificate_task bob "course-v1:edX+Demo+2021" ].
Proof.
  split; [reflexivity|].
  exact (dispatch_all_tasks_when_disabled sample_passing_status sample_eligible_mode
           sample_signals sample_world_disabled eq_refl).
Defined.

